(** * docTR: vocabulary table and OCR prediction orchestrator

    A shallow embedding of

    - [doctr/datasets/vocabs.py]: the table [VOCABS];
    - [doctr/models/predictor/pytorch.py]: [OCRPredictor.__init__] and
      [OCRPredictor.forward].

    Python strings are sequences of code points, a dict is a finite map,
    exceptions are the left summand of a result, and the calls made by
    [forward] are written to a call log carried next to the state of the
    two neural predictors. *)

From Stdlib Require Import NArith Ascii String List Lia.
From stdpp Require Import gmap strings list.

(** ** Part I: doctr/datasets/vocabs.py *)

Module Vocabs.

(** A Python [str]: its code points, in order. *)
Definition pystr : Type := list N.

(** The bytes of a string literal as it stands in the (UTF-8) source. *)
Fixpoint bytes_of (s : string) : list N :=
  match s with
  | EmptyString => []
  | String a rest => N_of_ascii a :: bytes_of rest
  end.

(** Decoding of the source encoding: one code point per UTF-8 sequence of
    one to four bytes.  A truncated sequence ends the decoding. *)
Fixpoint utf8_decode (bs : list N) : pystr :=
  match bs with
  | [] => []
  | b0 :: r0 =>
    if (b0 <? 128)%N then b0 :: utf8_decode r0
    else if (b0 <? 224)%N then
      match r0 with
      | b1 :: r1 => ((b0 - 192) * 64 + (b1 - 128))%N :: utf8_decode r1
      | _ => []
      end
    else if (b0 <? 240)%N then
      match r0 with
      | b1 :: b2 :: r2 =>
        ((b0 - 224) * 4096 + (b1 - 128) * 64 + (b2 - 128))%N :: utf8_decode r2
      | _ => []
      end
    else
      match r0 with
      | b1 :: b2 :: b3 :: r3 =>
        ((b0 - 240) * 262144 + (b1 - 128) * 4096 + (b2 - 128) * 64 + (b3 - 128))%N
          :: utf8_decode r3
      | _ => []
      end
  end.

(** A string literal of the source file. *)
Definition lit (s : string) : pystr := utf8_decode (bytes_of s).

(** The three constants of Python's standard module [string]. *)
Definition string_digits : pystr := lit "0123456789".
Definition string_ascii_letters : pystr :=
  lit "abcdefghijklmnopqrstuvwxyzABCDEFGHIJKLMNOPQRSTUVWXYZ".
(** [string.punctuation]; the double quote (code point 34) is spliced in. *)
Definition string_punctuation : pystr :=
  lit "!" ++ [34%N] ++ lit "#$%&'()*+,-./:;<=>?@[\]^_`{|}~".

(** [d[k]]: [None] stands for [KeyError]. *)
Definition getitem (d : gmap string pystr) (k : string) : option pystr := d !! k.

(** [d[k] = v]. *)
Definition setitem (d : gmap string pystr) (k : string) (v : pystr)
  : gmap string pystr := <[k := v]> d.

(** The dict display that [VOCABS] is first bound to. *)
Definition VOCABS_display : gmap string pystr :=
  list_to_map
    [ ("digits", string_digits);
      ("ascii_letters", string_ascii_letters);
      ("punctuation", string_punctuation);
      ("currency", lit "£€¥¢฿");
      ("ancient_greek", lit "αβγδεζηθικλμνξοπρστυφχψωΑΒΓΔΕΖΗΘΙΚΛΜΝΞΟΠΡΣΤΥΦΧΨΩ");
      ("arabic_letters", lit "ءآأؤإئابةتثجحخدذرزسشصضطظعغـفقكلمنهوىي");
      ("persian_letters", lit "پچڢڤگ");
      ("hindi_digits", lit "٠١٢٣٤٥٦٧٨٩");
      ("arabic_diacritics", lit "ًٌٍَُِّْ");
      ("arabic_punctuation", lit "؟؛«»—") ].

(** The module body after the display: eight item assignments, each
    reading entries of the dict as it stands at that point. *)
Definition VOCABS : option (gmap string pystr) :=
  let V := VOCABS_display in
  a ← getitem V "digits"; b ← getitem V "ascii_letters";
  c ← getitem V "punctuation";
  let V := setitem V "latin" ((a ++ b) ++ c) in
  a ← getitem V "latin"; c ← getitem V "currency";
  let V := setitem V "english" ((a ++ lit "°") ++ c) in
  a ← getitem V "latin"; c ← getitem V "currency";
  let V := setitem V "legacy_french"
             (((a ++ lit "°") ++ lit "àâéèêëîïôùûçÀÂÉÈËÎÏÔÙÛÇ") ++ c) in
  a ← getitem V "english";
  let V := setitem V "french" (a ++ lit "àâéèêëîïôùûüçÀÂÉÈÊËÎÏÔÙÛÜÇ") in
  a ← getitem V "english";
  let V := setitem V "portuguese"
             ((a ++ lit "áàâãéêëíïóôõúüçÁÀÂÃÉËÍÏÓÔÕÚÜÇ") ++ lit "¡¿") in
  a ← getitem V "english";
  let V := setitem V "spanish" ((a ++ lit "áéíóúüñÁÉÍÓÚÜÑ") ++ lit "¡¿") in
  a ← getitem V "english";
  let V := setitem V "german" (a ++ lit "äöüßÄÖÜẞ") in
  a ← getitem V "digits"; b ← getitem V "hindi_digits";
  c ← getitem V "arabic_letters"; d ← getitem V "persian_letters";
  e ← getitem V "arabic_diacritics"; f ← getitem V "arabic_punctuation";
  g ← getitem V "punctuation";
  Some (setitem V "arabic" ((((((a ++ b) ++ c) ++ d) ++ e) ++ f) ++ g)).

(** [VOCABS[k]] once the module is loaded. *)
Definition VOCABS_at (k : string) : option pystr := V ← VOCABS; getitem V k.

(** The keys of the display, then the keys assigned after it. *)
Definition display_keys : list string :=
  ["digits"; "ascii_letters"; "punctuation"; "currency"; "ancient_greek";
   "arabic_letters"; "persian_letters"; "hindi_digits"; "arabic_diacritics";
   "arabic_punctuation"].
Definition assigned_keys : list string :=
  ["latin"; "english"; "legacy_french"; "french"; "portuguese"; "spanish";
   "german"; "arabic"].

End Vocabs.

(** ** Part II: doctr/models/predictor/pytorch.py *)

(** *** Data model *)

(** What the orchestrator handles without looking inside. *)
Class Domain : Type := {
  World : Type;   (** state of the two neural predictors (modules, weights) *)
  Kwargs : Type;  (** the keyword arguments forwarded to both predictors *)
  Float : Type;   (** floating-point numbers: coordinates and confidences *)
  Buffer : Type;  (** the elements of an array *)
}.

(** Python exceptions.  [AssemblyError] is the spec's name for the
    invariant check of the assembly step; every other class is [Raised]. *)
Inductive exn : Type :=
| ValueError (msg : string)
| AssemblyError
| Raised (cls msg : string).

(** The two classes of [Union[np.ndarray, torch.Tensor]]. *)
Inductive array_type : Type := ndarray | Tensor.

#[global] Instance array_type_eq_dec : EqDecision array_type.
Proof. solve_decision. Defined.

Section Model.
Context {D : Domain}.

(** A page or a crop: its class, its [shape] and its elements. *)
Record image : Type := {
  type_of : array_type;
  shape : list N;
  data : Buffer;
}.

(** [page.ndim] *)
Definition ndim (page : image) : nat := length (shape page).

(** [isinstance(page, t)] *)
Definition isinstance (page : image) (t : array_type) : bool :=
  bool_decide (type_of page = t).

(** Modelled from the spec: a detected region (data model), whose
    declaration is not among the sources: an axis-aligned box or a rotated
    box, in relative coordinates. *)
Inductive Region : Type :=
| StraightBox (xmin ymin xmax ymax score : Float)
| RotatedBox (center_x center_y width height angle score : Float).

(** A recognition result: [(text, confidence)]. *)
Definition RecoResult : Type := string * Float.

(** Modelled from the spec: the output hierarchy (data model) of
    [doctr.io.elements], which is not among the sources.  The geometry of
    a line or a block is derived from its children and is not stored. *)
Record Word : Type := { geometry : Region; value : string; confidence : Float }.
Record Line : Type := { words : list Word }.
Record Block : Type := { lines : list Line }.
Record Page : Type := { blocks : list Block; dimensions : list N }.
Record Document : Type := { doc_pages : list Page }.

(** *** Effects: predictor state, call log, exceptions *)

(** One entry per call that [forward] makes, with the arguments passed. *)
Inductive Call : Type :=
| det_call (pages : list image) (kwargs : Kwargs)
| crops_call (pages : list image) (loc_preds : list (list Region))
    (channels_last assume_straight_pages : bool)
| reco_call (crops : list image) (kwargs : Kwargs)
| process_call (loc_preds : list (list Region)) (word_preds : list RecoResult)
    (allow_rotated_boxes : bool)
| build_call (boxes : list (list Region)) (text_preds : list (list RecoResult))
    (page_shapes : list (list N)).

Record State : Type := { world : World; calls : list Call }.

(** A computation: runs from a state, ends in a state, and either raises
    or returns. *)
Definition M (A : Type) : Type := State -> State * (exn + A).

Definition ret {A} (a : A) : M A := fun s => (s, inr a).

Definition raise {A} (e : exn) : M A := fun s => (s, inl e).

Definition bind {A B} (m : M A) (k : A -> M B) : M B :=
  fun s => match m s with
           | (s', inl e) => (s', inl e)
           | (s', inr a) => k a s'
           end.

(** A call to a callee that may change the predictor state: logged, then
    run. *)
Definition invoke {A} (c : Call) (f : World -> World * (exn + A)) : M A :=
  fun s => match f (world s) with
           | (w, r) => ({| world := w; calls := calls s ++ [c] |}, r)
           end.

(** A call to a callee without state. *)
Definition invoke_pure {A} (c : Call) (r : exn + A) : M A :=
  invoke c (fun w => (w, r)).

(** *** The collaborators *)

(** [DetectionPredictor.__call__] and [RecognitionPredictor.__call__]:
    external, stateful, may raise. *)
Definition DetectionPredictor : Type :=
  list image -> Kwargs -> World -> World * (exn + list (list Region)).
Definition RecognitionPredictor : Type :=
  list image -> Kwargs -> World -> World * (exn + list RecoResult).

(** The attribute of [DocumentBuilder] that [forward] reads. *)
Record DocumentBuilder : Type := { export_as_straight_boxes : bool }.

(** The methods that [forward] calls and whose bodies are in other files:
    the two static methods inherited from [_OCRPredictor] and
    [DocumentBuilder.__call__].  They have no state; they may raise. *)
Class Helpers : Type := {
  _prepare_crops :
    list image -> list (list Region) -> bool -> bool ->
    exn + (list (list image) * list (list Region));
  _process_predictions :
    list (list Region) -> list RecoResult -> bool ->
    exn + (list (list Region) * list (list RecoResult));
  DocumentBuilder_call :
    DocumentBuilder -> list (list Region) -> list (list RecoResult) ->
    list (list N) -> exn + Document;
}.

(** *** class OCRPredictor *)

Record OCRPredictor : Type := {
  det_predictor : DetectionPredictor;
  reco_predictor : RecognitionPredictor;
  doc_builder : DocumentBuilder;
  assume_straight_pages : bool;
}.

(** [OCRPredictor.__init__]; an omitted keyword argument is [None] and
    takes its default.  [eval()] returns the predictor it is called on. *)
Definition OCRPredictor_init (det : DetectionPredictor) (reco : RecognitionPredictor)
    (assume_straight : option bool) (export_as_straight : option bool)
  : OCRPredictor :=
  {| det_predictor := det;
     reco_predictor := reco;
     doc_builder := {| export_as_straight_boxes := default false export_as_straight |};
     assume_straight_pages := default true assume_straight |}.

(** The message of the dimension check. *)
Definition shape_error_msg : string :=
  "incorrect input shape: all pages are expected to be multi-channel 2D images.".

(** [any(page.ndim != 3 for page in pages)] *)
Definition bad_ndim (pages : list image) : bool :=
  existsb (fun page => bool_decide (ndim page <> 3)) pages.

(** [len(pages) == 0 or isinstance(pages[0], np.ndarray)]; the index is
    only evaluated on a non-empty list. *)
Definition channels_last_of (pages : list image) : bool :=
  if bool_decide (length pages = 0) then true
  else match pages !! 0 with
       | Some page => isinstance page ndarray
       | None => false
       end.

(** [page.shape[:2] if channels_last else page.shape[-2:]] *)
Definition page_shape (channels_last : bool) (page : image) : list N :=
  if channels_last then take 2 (shape page)
  else drop (length (shape page) - 2) (shape page).

(** [[crop for page_crops in crops for crop in page_crops]] *)
Definition flatten_crops (crops : list (list image)) : list image :=
  concat crops.

(** [OCRPredictor.forward]: the dimension check, then the five calls in
    order, each one logged; an exception ends the run where it is raised. *)
Definition forward {H : Helpers} (self : OCRPredictor) (pages : list image)
    (kwargs : Kwargs) : M Document :=
  if bad_ndim pages then raise (ValueError shape_error_msg)
  else
    bind (invoke (det_call pages kwargs) (det_predictor self pages kwargs))
      (fun loc_preds =>
    let channels_last := channels_last_of pages in
    bind (invoke_pure
            (crops_call pages loc_preds channels_last (assume_straight_pages self))
            (_prepare_crops pages loc_preds channels_last (assume_straight_pages self)))
      (fun '(crops, loc_preds) =>
    bind (invoke (reco_call (flatten_crops crops) kwargs)
            (reco_predictor self (flatten_crops crops) kwargs))
      (fun word_preds =>
    let allow_rotated_boxes := negb (export_as_straight_boxes (doc_builder self)) in
    bind (invoke_pure
            (process_call loc_preds word_preds allow_rotated_boxes)
            (_process_predictions loc_preds word_preds allow_rotated_boxes))
      (fun '(boxes, text_preds) =>
    let page_shapes := map (page_shape channels_last) pages in
    invoke_pure (build_call boxes text_preds page_shapes)
      (DocumentBuilder_call (doc_builder self) boxes text_preds page_shapes))))).

End Model.

(** *** The helpers, from the specification *)

Section SpecModel.
Context {D : Domain}.

(** Modelled from the spec: the geometry and the clustering policy of the
    helpers, which 4.1 to 4.3 describe in words only and which are taken
    as given: the crop of one region of a page, with the
    region as adjusted after extraction ([None] for a degenerate region,
    which is dropped); the rotation-aware post-processing of a region;
    the axis-aligned bounding rectangle of a region; the grouping of the
    words of a page into lines and blocks. *)
Class Geometry : Type := {
  extract_region : image -> bool -> bool -> Region -> option (image * Region);
  rotate_back : Region -> Region;
  straighten : Region -> Region;
  cluster : list Word -> list Block;
}.

Context {G : Geometry}.

(** Modelled from the spec: CropExtractor (4.1), the body of
    [_OCRPredictor._prepare_crops], which is not among the sources.  Per
    page, every region yields its crop and its adjusted region, or is
    dropped from both sequences; order is kept. *)
Definition spec_prepare_crops (pages : list image) (loc_preds : list (list Region))
    (channels_last assume_straight : bool)
  : exn + (list (list image) * list (list Region)) :=
  let kept :=
    zip_with
      (fun page regions =>
         omap (extract_region page channels_last assume_straight) regions)
      pages loc_preds in
  inr (map (map fst) kept, map (map snd) kept).

(** The slices of [flat] whose lengths are [counts], in order. *)
Fixpoint regroup {A} (counts : list nat) (flat : list A) : list (list A) :=
  match counts with
  | [] => []
  | n :: counts' => take n flat :: regroup counts' (drop n flat)
  end.

(** Modelled from the spec: PredictionAssembler (4.2), the body of
    [_OCRPredictor._process_predictions], which is not among the sources.
    The flat results are sliced by the per-page region counts; a flat
    length other than the sum of the counts is an [AssemblyError]. *)
Definition spec_process_predictions (loc_preds : list (list Region))
    (word_preds : list RecoResult) (allow_rotated_boxes : bool)
  : exn + (list (list Region) * list (list RecoResult)) :=
  let counts := map length loc_preds in
  if bool_decide (length word_preds <> sum_list counts) then inl AssemblyError
  else
    inr (if allow_rotated_boxes then map (map rotate_back) loc_preds else loc_preds,
         regroup counts word_preds).

(** One word per box paired with its [(text, confidence)]. *)
Definition pair_words (boxes : list Region) (preds : list RecoResult) : list Word :=
  zip_with
    (fun box pred => {| geometry := box; value := fst pred; confidence := snd pred |})
    boxes preds.

(** Modelled from the spec: DocumentBuilder (4.3), the body of
    [DocumentBuilder.__call__], which is not among the sources.  One page
    per triple of boxes, text predictions and page shape; the shape is
    stored as it is. *)
Definition spec_build (builder : DocumentBuilder) (boxes : list (list Region))
    (text_preds : list (list RecoResult)) (page_shapes : list (list N))
  : exn + Document :=
  inr {| doc_pages :=
           zip_with
             (fun page_words page_shape =>
                {| blocks :=
                     cluster
                       (pair_words
                          (if export_as_straight_boxes builder
                           then map straighten (fst page_words)
                           else fst page_words)
                          (snd page_words));
                   dimensions := page_shape |})
             (zip boxes text_preds) page_shapes |}.

(** The helpers as the specification describes them. *)
#[local] Instance spec_helpers : Helpers := {|
  _prepare_crops := spec_prepare_crops;
  _process_predictions := spec_process_predictions;
  DocumentBuilder_call := spec_build;
|}.

(** [predict]: [forward] run with the helpers of the specification. *)
Definition predict (self : OCRPredictor) (pages : list image) (kwargs : Kwargs)
  : M Document :=
  forward (H := spec_helpers) self pages kwargs.

End SpecModel.

(** *** Runs of [forward] and the interface contracts *)

Section Runs.
Context {D : Domain} {H : Helpers}.

(** The outcomes of a run of [forward] from state [s]: the state it ends
    in and what it raises or returns.  One rule per place where the run
    can stop. *)
Inductive forward_run (self : OCRPredictor) (pages : list image) (kwargs : Kwargs)
    (s : State) : State * (exn + Document) -> Prop :=
| run_bad_shape :
    bad_ndim pages = true ->
    forward_run self pages kwargs s (s, inl (ValueError shape_error_msg))
| run_det_raises w e :
    bad_ndim pages = false ->
    det_predictor self pages kwargs (world s) = (w, inl e) ->
    forward_run self pages kwargs s
      ({| world := w; calls := calls s ++ [det_call pages kwargs] |}, inl e)
| run_crops_raises w lp e :
    bad_ndim pages = false ->
    det_predictor self pages kwargs (world s) = (w, inr lp) ->
    _prepare_crops pages lp (channels_last_of pages) (assume_straight_pages self)
      = inl e ->
    forward_run self pages kwargs s
      ({| world := w;
          calls := calls s ++
            [det_call pages kwargs;
             crops_call pages lp (channels_last_of pages) (assume_straight_pages self)] |},
       inl e)
| run_reco_raises w lp crops lp' w' e :
    bad_ndim pages = false ->
    det_predictor self pages kwargs (world s) = (w, inr lp) ->
    _prepare_crops pages lp (channels_last_of pages) (assume_straight_pages self)
      = inr (crops, lp') ->
    reco_predictor self (flatten_crops crops) kwargs w = (w', inl e) ->
    forward_run self pages kwargs s
      ({| world := w';
          calls := calls s ++
            [det_call pages kwargs;
             crops_call pages lp (channels_last_of pages) (assume_straight_pages self);
             reco_call (flatten_crops crops) kwargs] |},
       inl e)
| run_process_raises w lp crops lp' w' wp e :
    bad_ndim pages = false ->
    det_predictor self pages kwargs (world s) = (w, inr lp) ->
    _prepare_crops pages lp (channels_last_of pages) (assume_straight_pages self)
      = inr (crops, lp') ->
    reco_predictor self (flatten_crops crops) kwargs w = (w', inr wp) ->
    _process_predictions lp' wp (negb (export_as_straight_boxes (doc_builder self)))
      = inl e ->
    forward_run self pages kwargs s
      ({| world := w';
          calls := calls s ++
            [det_call pages kwargs;
             crops_call pages lp (channels_last_of pages) (assume_straight_pages self);
             reco_call (flatten_crops crops) kwargs;
             process_call lp' wp (negb (export_as_straight_boxes (doc_builder self)))] |},
       inl e)
| run_ends w lp crops lp' w' wp boxes tp r :
    bad_ndim pages = false ->
    det_predictor self pages kwargs (world s) = (w, inr lp) ->
    _prepare_crops pages lp (channels_last_of pages) (assume_straight_pages self)
      = inr (crops, lp') ->
    reco_predictor self (flatten_crops crops) kwargs w = (w', inr wp) ->
    _process_predictions lp' wp (negb (export_as_straight_boxes (doc_builder self)))
      = inr (boxes, tp) ->
    DocumentBuilder_call (doc_builder self) boxes tp
      (map (page_shape (channels_last_of pages)) pages) = r ->
    forward_run self pages kwargs s
      ({| world := w';
          calls := calls s ++
            [det_call pages kwargs;
             crops_call pages lp (channels_last_of pages) (assume_straight_pages self);
             reco_call (flatten_crops crops) kwargs;
             process_call lp' wp (negb (export_as_straight_boxes (doc_builder self)));
             build_call boxes tp (map (page_shape (channels_last_of pages)) pages)] |},
       r).

(** Log entries of the two external predictors. *)
Definition is_det_call (c : Call) : bool :=
  match c with det_call _ _ => true | _ => false end.
Definition is_reco_call (c : Call) : bool :=
  match c with reco_call _ _ => true | _ => false end.

(** Interface contract of the detection predictor: when it returns, it
    returns one localization prediction per input page. *)
Definition det_contract (det : DetectionPredictor) : Prop :=
  forall pages kwargs w lp,
    snd (det pages kwargs w) = inr lp -> length lp = length pages.

(** Interface contract of the recognition predictor: when it returns, it
    returns one result per crop. *)
Definition reco_contract (reco : RecognitionPredictor) : Prop :=
  forall crops kwargs w wp,
    snd (reco crops kwargs w) = inr wp -> length wp = length crops.

(** A predictor whose outcome is a function of its inputs alone. *)
Definition pure_predictor {O} (f : list image -> Kwargs -> World -> World * (exn + O))
  : Prop :=
  forall x kwargs w w', snd (f x kwargs w) = snd (f x kwargs w').





End Runs.

(** *** Test doubles *)

Module Doubles.

(** Predictor state: a call counter.  Floats: thousandths. *)
#[local] Instance dom : Domain :=
  {| World := nat; Kwargs := unit; Float := Z; Buffer := list N |}.

(** One full-page box per page. *)
Definition det : DetectionPredictor :=
  fun pages _ w => (S w, inr (map (fun _ => [StraightBox 0 0 1000 1000 900]%Z) pages)).

(** The same word for every crop. *)
Definition reco : RecognitionPredictor :=
  fun crops _ w => (S w, inr (map (fun _ => ("word", 990%Z)) crops)).

(** The crop is the page itself; every word of a page in one line. *)
#[local] Instance geom : Geometry := {|
  extract_region := fun page _ _ region => Some (page, region);
  rotate_back := fun region => region;
  straighten := fun region => region;
  cluster := fun ws => [ {| lines := [ {| words := ws |} ] |} ];
|}.

Definition predictor : OCRPredictor := OCRPredictor_init det reco None None.

Definition hwc (h w c : N) : image :=
  {| type_of := ndarray; shape := [h; w; c]; data := [] |}.
Definition chw (c h w : N) : image :=
  {| type_of := Tensor; shape := [c; h; w]; data := [] |}.
(** The input of the test suite's dimension check: shape (1, 256, 512, 3). *)
Definition batched : image :=
  {| type_of := ndarray; shape := [1; 256; 512; 3]%N; data := [] |}.

Definition s0 : State := {| world := 0; calls := [] |}.

(** A detection predictor that fails on every batch. *)
Definition det_raising : DetectionPredictor :=
  fun _ _ w => (S w, inl (Raised "RuntimeError" "detection failed")).

Definition failing_predictor : OCRPredictor :=
  OCRPredictor_init det_raising reco None None.

(** What [det] finds on a page and what [reco] reads in a crop. *)
Definition full_box : Region := (StraightBox 0 0 1000 1000 900)%Z.
Definition a_word : RecoResult := ("word", 990%Z).

(** A geometry that shows the flags it is given: the crop records the two
    flags of crop extraction in its shape, and the rotation-aware
    post-processing turns a straight box into a rotated one. *)
Definition flag_crop (page : image) (channels_last assume_straight : bool) : image :=
  {| type_of := type_of page;
     shape := [if channels_last then 1 else 0; if assume_straight then 1 else 0]%N;
     data := [] |}.
Definition rotated (region : Region) : Region :=
  match region with
  | StraightBox xmin ymin xmax ymax score =>
      RotatedBox xmin ymin xmax ymax 0%Z score
  | RotatedBox _ _ _ _ _ _ => region
  end.
Definition geom_flags : Geometry := {|
  extract_region := fun page channels_last assume_straight region =>
    Some (flag_crop page channels_last assume_straight, region);
  rotate_back := rotated;
  straighten := fun region => region;
  cluster := fun ws => [ {| lines := [ {| words := ws |} ] |} ];
|}.
Definition flag_helpers : Helpers := @spec_helpers dom geom_flags.

End Doubles.

(** * Properties *)

(** ** The vocabulary table *)

Section VocabFacts.
Import Vocabs.

Lemma prefix_elem_of (l1 l2 : pystr) (c : N) :
  l1 `prefix_of` l2 -> c ∈ l1 -> c ∈ l2.
Proof. intros [k ->] Hc. apply elem_of_app. by left. Qed.

(** C10: in the loaded table, the entry [latin] is the concatenation of the
    entries [digits], [ascii_letters] and [punctuation]; [latin] is a
    prefix of [english]; and [english] is a prefix of each of [french],
    [portuguese], [spanish] and [german], so that every character of the
    English vocabulary is a character of these four. *)
Theorem vocabs_prefix_structure :
  exists digits letters punctuation latin english,
    VOCABS_at "digits" = Some digits
    /\ VOCABS_at "ascii_letters" = Some letters
    /\ VOCABS_at "punctuation" = Some punctuation
    /\ VOCABS_at "latin" = Some latin
    /\ VOCABS_at "english" = Some english
    /\ latin = digits ++ letters ++ punctuation
    /\ latin `prefix_of` english
    /\ forall lang : string,
         lang ∈ ["french"; "portuguese"; "spanish"; "german"] ->
         exists vocab,
           VOCABS_at lang = Some vocab
           /\ english `prefix_of` vocab
           /\ forall c, c ∈ english -> c ∈ vocab.
Proof.
  set (latin := (string_digits ++ string_ascii_letters) ++ string_punctuation).
  set (english := (latin ++ lit "°") ++ lit "£€¥¢฿").
  exists string_digits, string_ascii_letters, string_punctuation, latin, english.
  do 5 (split; [vm_compute; reflexivity|]).
  split; [subst latin; by rewrite <- (assoc_L (++))|].
  split; [subst english; rewrite <- (assoc_L (++)); by apply prefix_app_r|].
  intros lang Hlang.
  assert (Hp : exists vocab,
             VOCABS_at lang = Some vocab /\ english `prefix_of` vocab).
  2: { destruct Hp as (vocab & Hv & Hp). exists vocab. split; [exact Hv|].
       split; [exact Hp|]. intros c. by apply prefix_elem_of. }
  repeat (apply elem_of_cons in Hlang as [-> | Hlang]);
    [ .. | by apply elem_of_nil in Hlang ].
  - exists (english ++ lit "àâéèêëîïôùûüçÀÂÉÈÊËÎÏÔÙÛÜÇ").
    split; [vm_compute; reflexivity | by apply prefix_app_r].
  - exists ((english ++ lit "áàâãéêëíïóôõúüçÁÀÂÃÉËÍÏÓÔÕÚÜÇ") ++ lit "¡¿").
    split; [vm_compute; reflexivity |].
    rewrite <- (assoc_L (++)). by apply prefix_app_r.
  - exists ((english ++ lit "áéíóúüñÁÉÍÓÚÜÑ") ++ lit "¡¿").
    split; [vm_compute; reflexivity |].
    rewrite <- (assoc_L (++)). by apply prefix_app_r.
  - exists (english ++ lit "äöüßÄÖÜẞ").
    split; [vm_compute; reflexivity | by apply prefix_app_r].
Qed.

End VocabFacts.

(** ** [forward], for any helpers *)

Section ForwardFacts.
Context {D : Domain} {H : Helpers}.

Lemma bad_ndim_true (pages : list image) :
  bad_ndim pages = true <-> Exists (fun page => ndim page <> 3) pages.
Proof.
  unfold bad_ndim. induction pages as [|page pages IH]; simpl.
  - split; [discriminate | by intros ?%Exists_nil].
  - rewrite orb_true_iff, Exists_cons, bool_decide_eq_true, IH. tauto.
Qed.

Lemma bad_ndim_false (pages : list image) :
  bad_ndim pages = false <-> Forall (fun page => ndim page = 3) pages.
Proof.
  unfold bad_ndim. induction pages as [|page pages IH]; simpl.
  - split; [constructor | done].
  - rewrite orb_false_iff, Forall_cons, bool_decide_eq_false, IH.
    split; intros [H1 H2]; (split; [|done]); [|lia].
    destruct (decide (ndim page = 3)); [done | contradiction].
Qed.

(** Every run of [forward] is one of the six of [forward_run]. *)
Lemma forward_runs (self : OCRPredictor) (pages : list image) (kwargs : Kwargs)
    (s : State) :
  forward_run self pages kwargs s (forward self pages kwargs s).
Proof.
  unfold forward.
  destruct (bad_ndim pages) eqn:Hbad; [by constructor|].
  unfold bind, invoke_pure, invoke, raise; simpl.
  destruct (det_predictor self pages kwargs (world s)) as [w [e|lp]] eqn:Hdet.
  { by apply run_det_raises. }
  simpl.
  destruct (_prepare_crops pages lp (channels_last_of pages)
              (assume_straight_pages self)) as [e|[crops lp']] eqn:Hcrops.
  { rewrite <- app_assoc. by apply run_crops_raises. }
  simpl.
  destruct (reco_predictor self (flatten_crops crops) kwargs w)
    as [w' [e|wp]] eqn:Hreco.
  { rewrite <- !app_assoc. by eapply run_reco_raises. }
  simpl.
  destruct (_process_predictions lp' wp
              (negb (export_as_straight_boxes (doc_builder self))))
    as [e|[boxes tp]] eqn:Hproc.
  { rewrite <- !app_assoc. by eapply run_process_raises. }
  simpl. rewrite <- !app_assoc. by eapply run_ends.
Qed.

(** A run only adds to the call log. *)
Lemma forward_log_grows (self : OCRPredictor) (pages : list image) (kwargs : Kwargs)
    (s : State) :
  exists evs, calls (fst (forward self pages kwargs s)) = calls s ++ evs.
Proof.
  destruct (forward_runs self pages kwargs s); simpl; eauto.
  exists []. by rewrite app_nil_r.
Qed.

(** A run has one outcome: what [forward_run] allows is what [forward]
    computes. *)
Lemma forward_run_unique (self : OCRPredictor) (pages : list image)
    (kwargs : Kwargs) (s : State) (out : State * (exn + Document)) :
  forward_run self pages kwargs s out -> forward self pages kwargs s = out.
Proof.
  intros Hrun. unfold forward.
  destruct Hrun
    as [Hbad|w e Hbad Hdet|w lp e Hbad Hdet Hcrops
        |w lp crops lp' w' e Hbad Hdet Hcrops Hreco
        |w lp crops lp' w' wp e Hbad Hdet Hcrops Hreco Hproc
        |w lp crops lp' w' wp boxes tp r Hbad Hdet Hcrops Hreco Hproc Hbuild];
    rewrite Hbad; [done|..];
    unfold bind, invoke_pure, invoke, raise; simpl;
    rewrite Hdet; simpl; [done|..];
    rewrite Hcrops; simpl; rewrite <- ?app_assoc; [done|..];
    rewrite Hreco; simpl; rewrite <- ?app_assoc; [done|..];
    rewrite Hproc; simpl; rewrite <- ?app_assoc; [done|].
  by rewrite Hbuild.
Qed.

(** What the two slices of the source give on a three-axis shape. *)
Lemma page_shape_3d (page : image) :
  ndim page = 3 ->
  exists a b c,
    shape page = [a; b; c]
    /\ page_shape true page = [a; b]
    /\ page_shape false page = [b; c].
Proof.
  unfold ndim, page_shape.
  destruct (shape page) as [|a [|b [|c [|d l]]]]; simpl; try discriminate.
  intros _. by exists a, b, c.
Qed.

(** The flat batch lists the pages one after the other, each page's crops
    in their order. *)
Lemma flatten_lookup {A} (groups : list (list A)) (i j : nat) (group : list A) (x : A) :
  groups !! i = Some group ->
  group !! j = Some x ->
  concat groups !! (sum_list (map length (take i groups)) + j) = Some x.
Proof.
  revert i. induction groups as [|g groups IH]; intros i Hi Hj; [done|].
  destruct i as [|i]; simpl in *.
  - injection Hi as ->. by apply lookup_app_l_Some.
  - rewrite lookup_app_r by lia.
    replace (length g + sum_list (map length (take i groups)) + j - length g)
      with (sum_list (map length (take i groups)) + j) by lia.
    by apply IH.
Qed.

Lemma flatten_length {A} (groups : list (list A)) :
  length (concat groups) = sum_list (map length groups).
Proof.
  induction groups as [|g groups IH]; simpl; [done|].
  by rewrite length_app, IH.
Qed.

Lemma regroup_length {A} (counts : list nat) (flat : list A) :
  length (regroup counts flat) = length counts.
Proof.
  revert flat. induction counts as [|n counts IH]; intros flat; simpl; [done|].
  by rewrite IH.
Qed.

(** Slicing the flat batch by the per-page counts gives the pages back. *)
Lemma regroup_flatten {A} (groups : list (list A)) :
  regroup (map length groups) (concat groups) = groups.
Proof.
  induction groups as [|g groups IH]; simpl; [done|].
  by rewrite take_app_length, drop_app_length, IH.
Qed.

(** Case analysis on the entries of a run's log. *)
Ltac log_entry Hin :=
  repeat (apply elem_of_cons in Hin as [Hin | Hin]);
  try (by apply elem_of_nil in Hin);
  try discriminate Hin;
  try (injection Hin as -> -> ->);
  try (injection Hin as -> -> -> ->).

(** C1: when some page of the batch, at any position, does not have
    exactly three dimensions, [forward] raises [ValueError] with the
    message that all pages are expected to be multi-channel 2D images, and
    the state it ends in is the state it started from: the predictor state
    is untouched and no call has been logged, so neither the detection nor
    the recognition predictor has been invoked. *)
Theorem forward_rejects_bad_ndim (self : OCRPredictor) (pages : list image)
    (kwargs : Kwargs) (s : State) :
  Exists (fun page => ndim page <> 3) pages ->
  forward self pages kwargs s
  = (s, inl (ValueError
       "incorrect input shape: all pages are expected to be multi-channel 2D images.")).
Proof.
  intros Hbad%bad_ndim_true. unfold forward. by rewrite Hbad.
Qed.


(** C3: [channels_last] holds exactly when the batch is empty or its first
    page is a numpy array.  This one value is the flag that crop
    extraction is called with and the selector, for every page alike, of
    the axes of the shape that the document builder is called with: once
    detection has returned, the run raises what crop extraction raises on
    that flag, and otherwise its outcome is the outcome of the builder on
    the shapes so selected.  The log of every run says the same. *)
Theorem channels_last_single_decision (self : OCRPredictor) (pages : list image)
    (kwargs : Kwargs) (s : State) :
  (channels_last_of pages = true <->
   pages = [] \/ exists page rest, pages = page :: rest /\ type_of page = ndarray)
  /\ (exists evs,
        calls (fst (forward self pages kwargs s)) = calls s ++ evs
        /\ (forall ps lp cl asp,
              crops_call ps lp cl asp ∈ evs -> cl = channels_last_of pages)
        /\ (forall boxes tp shapes,
              build_call boxes tp shapes ∈ evs ->
              shapes
              = map (fun page =>
                       if channels_last_of pages then take 2 (shape page)
                       else drop (length (shape page) - 2) (shape page))
                  pages)
        /\ (forall doc,
              snd (forward self pages kwargs s) = inr doc ->
              (exists lp,
                 crops_call pages lp (channels_last_of pages)
                   (assume_straight_pages self) ∈ evs)
              /\ exists boxes tp shapes, build_call boxes tp shapes ∈ evs))
  /\ (forall w lp,
        bad_ndim pages = false ->
        det_predictor self pages kwargs (world s) = (w, inr lp) ->
        match _prepare_crops pages lp (channels_last_of pages)
                (assume_straight_pages self) with
        | inl e =>
            forward self pages kwargs s
            = ({| world := w;
                  calls := calls s ++
                    [det_call pages kwargs;
                     crops_call pages lp (channels_last_of pages)
                       (assume_straight_pages self)] |},
               inl e)
        | inr (crops, lp') =>
            forall w' wp boxes tp,
              reco_predictor self (flatten_crops crops) kwargs w = (w', inr wp) ->
              _process_predictions lp' wp
                (negb (export_as_straight_boxes (doc_builder self)))
              = inr (boxes, tp) ->
              forward self pages kwargs s
              = ({| world := w';
                    calls := calls s ++
                      [det_call pages kwargs;
                       crops_call pages lp (channels_last_of pages)
                         (assume_straight_pages self);
                       reco_call (flatten_crops crops) kwargs;
                       process_call lp' wp
                         (negb (export_as_straight_boxes (doc_builder self)));
                       build_call boxes tp
                         (map (fun page =>
                                 if channels_last_of pages then take 2 (shape page)
                                 else drop (length (shape page) - 2) (shape page))
                            pages)] |},
                 DocumentBuilder_call (doc_builder self) boxes tp
                   (map (fun page =>
                           if channels_last_of pages then take 2 (shape page)
                           else drop (length (shape page) - 2) (shape page))
                      pages))
        end).
Proof.
  split.
  { unfold channels_last_of, isinstance. destruct pages as [|page rest]; simpl.
    - split; [by left | done].
    - rewrite bool_decide_eq_true. split.
      + intros Ht. right. by exists page, rest.
      + intros [?|(p & r & Heq & Ht)]; [done|]. by injection Heq as -> ->. }
  split.
  { destruct (forward_runs self pages kwargs s); simpl;
      (eexists; split; [first [reflexivity | symmetry; apply app_nil_r]|]);
      (split; [intros ps lp0 cl asp Hin; by log_entry Hin|]);
      (split; [intros bs tp0 shapes Hin; by log_entry Hin|]);
      intros doc Hdoc; try discriminate Hdoc.
    split.
    - eexists. rewrite !elem_of_cons. right; left; reflexivity.
    - eexists _, _, _. rewrite !elem_of_cons. do 4 right. left. reflexivity. }
  intros w lp Hbad Hdet.
  destruct (_prepare_crops pages lp (channels_last_of pages)
              (assume_straight_pages self)) as [e|[crops lp']] eqn:Hcrops.
  - apply forward_run_unique. by apply run_crops_raises.
  - intros w' wp boxes tp Hreco Hproc. apply forward_run_unique.
    by eapply (run_ends self pages kwargs s w lp crops lp' w' wp boxes tp).
Qed.

(** C4: for a batch whose pages all have three dimensions, the document
    builder is called with one shape per page: the first two axes of the
    page's shape (height and width of an H x W x C page) when
    [channels_last] holds, the last two (height and width of a C x H x W
    page) when it does not.  Once the four earlier stages have returned,
    the outcome of the run is the outcome of the builder on that list; the
    log of every run says the same. *)
Theorem page_shapes_follow_layout (self : OCRPredictor) (pages : list image)
    (kwargs : Kwargs) (s : State) :
  Forall (fun page => ndim page = 3) pages ->
  (exists evs,
     calls (fst (forward self pages kwargs s)) = calls s ++ evs
     /\ (forall boxes tp shapes,
           build_call boxes tp shapes ∈ evs ->
           length shapes = length pages
           /\ forall i page,
                pages !! i = Some page ->
                exists a b c : N,
                  shape page = [a; b; c]
                  /\ shapes !! i
                     = Some (if channels_last_of pages then [a; b] else [b; c]))
     /\ (forall doc,
           snd (forward self pages kwargs s) = inr doc ->
           exists boxes tp shapes, build_call boxes tp shapes ∈ evs))
  /\ (forall w lp crops lp' w' wp boxes tp,
        det_predictor self pages kwargs (world s) = (w, inr lp) ->
        _prepare_crops pages lp (channels_last_of pages) (assume_straight_pages self)
        = inr (crops, lp') ->
        reco_predictor self (flatten_crops crops) kwargs w = (w', inr wp) ->
        _process_predictions lp' wp
          (negb (export_as_straight_boxes (doc_builder self))) = inr (boxes, tp) ->
        exists shapes,
          snd (forward self pages kwargs s)
          = DocumentBuilder_call (doc_builder self) boxes tp shapes
          /\ length shapes = length pages
          /\ forall i page,
               pages !! i = Some page ->
               exists a b c : N,
                 shape page = [a; b; c]
                 /\ shapes !! i
                    = Some (if channels_last_of pages then [a; b] else [b; c])).
Proof.
  intros Hvalid.
  assert (Hshapes :
    forall i page, pages !! i = Some page ->
      exists a b c : N,
        shape page = [a; b; c]
        /\ map (page_shape (channels_last_of pages)) pages !! i
           = Some (if channels_last_of pages then [a; b] else [b; c])).
  { intros i page Hi.
    assert (Hnd : ndim page = 3).
    { rewrite Forall_forall in Hvalid. apply Hvalid.
      apply list_elem_of_lookup. by exists i. }
    destruct (page_shape_3d page Hnd) as (a & b & c & Hs & Ht & Hf).
    exists a, b, c. split; [exact Hs|].
    rewrite list_lookup_fmap, Hi. simpl.
    destruct (channels_last_of pages); by rewrite ?Ht, ?Hf. }
  split.
  { destruct (forward_runs self pages kwargs s); simpl;
      (eexists; split; [first [reflexivity | symmetry; apply app_nil_r]|]);
      (split; [intros bs tp0 shapes Hin; log_entry Hin;
               (split; [apply length_map | exact Hshapes])|]);
      intros doc Hdoc; try discriminate Hdoc.
    eexists _, _, _. rewrite !elem_of_cons. do 4 right. left. reflexivity. }
  intros w lp crops lp' w' wp boxes tp Hdet Hcrops Hreco Hproc.
  exists (map (page_shape (channels_last_of pages)) pages).
  split; [|split; [apply length_map | exact Hshapes]].
  rewrite (forward_run_unique self pages kwargs s _
             (run_ends self pages kwargs s w lp crops lp' w' wp boxes tp _
                (proj2 (bad_ndim_false pages) Hvalid) Hdet Hcrops Hreco Hproc
                eq_refl)).
  reflexivity.
Qed.

(** C5: the builder made by the constructor holds the flag given at
    construction ([False] when omitted), and the assembly step is called
    with the negation of the builder's flag as [allow_rotated_boxes]: once
    detection, crop extraction and recognition have returned, the run
    raises what the assembly step raises on that flag, and otherwise its
    outcome is the outcome of the builder on what the assembly step
    returns on that flag.  The log of every run says the same. *)
Theorem assembly_flag_negates_export (self : OCRPredictor) (pages : list image)
    (kwargs : Kwargs) (s : State) :
  (forall det reco asp export,
     export_as_straight_boxes (doc_builder (OCRPredictor_init det reco asp export))
     = default false export)
  /\ (exists evs,
        calls (fst (forward self pages kwargs s)) = calls s ++ evs
        /\ (forall lp wp flag,
              process_call lp wp flag ∈ evs ->
              flag = negb (export_as_straight_boxes (doc_builder self)))
        /\ (forall doc,
              snd (forward self pages kwargs s) = inr doc ->
              exists lp wp,
                process_call lp wp
                  (negb (export_as_straight_boxes (doc_builder self))) ∈ evs))
  /\ (forall w lp crops lp' w' wp,
        bad_ndim pages = false ->
        det_predictor self pages kwargs (world s) = (w, inr lp) ->
        _prepare_crops pages lp (channels_last_of pages) (assume_straight_pages self)
        = inr (crops, lp') ->
        reco_predictor self (flatten_crops crops) kwargs w = (w', inr wp) ->
        match _process_predictions lp' wp
                (negb (export_as_straight_boxes (doc_builder self))) with
        | inl e =>
            forward self pages kwargs s
            = ({| world := w';
                  calls := calls s ++
                    [det_call pages kwargs;
                     crops_call pages lp (channels_last_of pages)
                       (assume_straight_pages self);
                     reco_call (flatten_crops crops) kwargs;
                     process_call lp' wp
                       (negb (export_as_straight_boxes (doc_builder self)))] |},
               inl e)
        | inr (boxes, tp) =>
            forward self pages kwargs s
            = ({| world := w';
                  calls := calls s ++
                    [det_call pages kwargs;
                     crops_call pages lp (channels_last_of pages)
                       (assume_straight_pages self);
                     reco_call (flatten_crops crops) kwargs;
                     process_call lp' wp
                       (negb (export_as_straight_boxes (doc_builder self)));
                     build_call boxes tp
                       (map (page_shape (channels_last_of pages)) pages)] |},
               DocumentBuilder_call (doc_builder self) boxes tp
                 (map (page_shape (channels_last_of pages)) pages))
        end).
Proof.
  split; [done|]. split.
  { destruct (forward_runs self pages kwargs s); simpl;
      (eexists; split; [first [reflexivity | symmetry; apply app_nil_r]|]);
      (split; [intros lp0 wp0 flag Hin; by log_entry Hin|]);
      intros doc Hdoc; try discriminate Hdoc.
    eexists _, _. rewrite !elem_of_cons. do 3 right. left. reflexivity. }
  intros w lp crops lp' w' wp Hbad Hdet Hcrops Hreco.
  destruct (_process_predictions lp' wp
              (negb (export_as_straight_boxes (doc_builder self))))
    as [e|[boxes tp]] eqn:Hproc.
  - apply forward_run_unique. by eapply run_process_raises.
  - apply forward_run_unique.
    by eapply (run_ends self pages kwargs s w lp crops lp' w' wp boxes tp).
Qed.

(** C6: in a run that returns, the detection predictor is invoked once,
    with the whole batch, from the state the run starts in, and the
    recognition predictor is invoked once, from the state detection left,
    with the crops of all pages in one flat batch; the state the run ends
    in is the one recognition left, and the document is built from the
    recognizer's results and the per-page regions returned with the crops.
    In the flat batch the crop at position [j] of page [i] sits after all
    crops of the pages before [i], [j] places on, so pages follow one
    another and the order inside a page is kept; the per-page counts give
    the page boundaries back. *)
Theorem predictors_invoked_once (self : OCRPredictor) (pages : list image)
    (kwargs : Kwargs) (s s' : State) (doc : Document) :
  forward self pages kwargs s = (s', inr doc) ->
  exists evs lp crops lp',
    calls s' = calls s ++ evs
    /\ List.filter is_det_call evs = [det_call pages kwargs]
    /\ snd (det_predictor self pages kwargs (world s)) = inr lp
    /\ _prepare_crops pages lp (channels_last_of pages) (assume_straight_pages self)
       = inr (crops, lp')
    /\ List.filter is_reco_call evs = [reco_call (flatten_crops crops) kwargs]
    /\ (forall i j page_crops crop,
          crops !! i = Some page_crops ->
          page_crops !! j = Some crop ->
          flatten_crops crops !! (sum_list (map length (take i crops)) + j)
          = Some crop)
    /\ length (flatten_crops crops) = sum_list (map length crops)
    /\ regroup (map length crops) (flatten_crops crops) = crops
    /\ (exists wp flag, process_call lp' wp flag ∈ evs)
    /\ exists w wp boxes tp,
         det_predictor self pages kwargs (world s) = (w, inr lp)
         /\ reco_predictor self (flatten_crops crops) kwargs w = (world s', inr wp)
         /\ _process_predictions lp' wp
              (negb (export_as_straight_boxes (doc_builder self))) = inr (boxes, tp)
         /\ DocumentBuilder_call (doc_builder self) boxes tp
              (map (page_shape (channels_last_of pages)) pages) = inr doc.
Proof.
  intros Hrun. pose proof (forward_runs self pages kwargs s) as Hr.
  rewrite Hrun in Hr. inversion Hr as [| | | | |w lp crops lp' w' wp boxes tp r
    Hbad Hdet Hcrops Hreco Hproc Hbuild]; subst.
  eexists _, lp, crops, lp'. split; [reflexivity|].
  split; [reflexivity|]. split; [by rewrite Hdet|].
  split; [exact Hcrops|]. split; [reflexivity|].
  split; [intros i j pc crop; apply flatten_lookup|].
  split; [apply flatten_length|]. split; [apply regroup_flatten|].
  split.
  - eexists _, _. rewrite !elem_of_cons. do 3 right. left. reflexivity.
  - by exists w, wp, boxes, tp.
Qed.

End ForwardFacts.

(** ** [predict]: [forward] with the helpers of the specification *)

Section PredictFacts.
Context {D : Domain} {G : Geometry}.

(** Crop extraction returns, for as many pages as it was given
    predictions for, as many crops as adjusted regions. *)
Lemma spec_prepare_crops_returns (pages : list image) (lp : list (list Region))
    (cl asp : bool) :
  exists crops lp',
    spec_prepare_crops pages lp cl asp = inr (crops, lp')
    /\ length crops = min (length pages) (length lp)
    /\ length lp' = min (length pages) (length lp)
    /\ map length crops = map length lp'.
Proof.
  unfold spec_prepare_crops. eexists _, _. split; [reflexivity|].
  rewrite !length_map, length_zip_with. split; [done|]. split; [done|].
  rewrite !map_map. apply map_ext. intros kept. by rewrite !length_map.
Qed.

(** The assembly step returns when the flat length is the sum of the
    counts, with one group of boxes and one group of texts per page. *)
Lemma spec_process_predictions_returns (lp : list (list Region))
    (wp : list RecoResult) (flag : bool) :
  length wp = sum_list (map length lp) ->
  exists boxes tp,
    spec_process_predictions lp wp flag = inr (boxes, tp)
    /\ length boxes = length lp
    /\ length tp = length lp.
Proof.
  intros Hlen. unfold spec_process_predictions.
  rewrite bool_decide_eq_false_2 by (intros Hne; by apply Hne).
  eexists _, _. split; [reflexivity|].
  rewrite regroup_length, length_map.
  split; [|done]. destruct flag; [apply length_map | done].
Qed.

(** The builder makes one page per shape and stores the shape in it. *)
Lemma spec_build_pages (builder : DocumentBuilder) (boxes : list (list Region))
    (tp : list (list RecoResult)) (shapes : list (list N)) :
  length boxes = length shapes ->
  length tp = length shapes ->
  exists doc,
    spec_build builder boxes tp shapes = inr doc
    /\ length (doc_pages doc) = length shapes
    /\ forall i sh,
         shapes !! i = Some sh ->
         exists dp, doc_pages doc !! i = Some dp /\ dimensions dp = sh.
Proof.
  intros Hb Ht. unfold spec_build. eexists. split; [reflexivity|]. simpl.
  split.
  - rewrite length_zip_with, length_zip. lia.
  - intros i sh Hi.
    assert (Hlt : i < length shapes) by (by eapply lookup_lt_Some).
    destruct (lookup_lt_is_Some_2 (zip boxes tp) i) as [pw Hpw].
    { rewrite length_zip. lia. }
    rewrite lookup_zip_with, Hpw, Hi. simpl. by eexists.
Qed.

(** With pure predictors, what a run raises or returns does not depend on
    the state it starts from, whatever the helpers. *)
Lemma forward_deterministic {H : Helpers} (self : OCRPredictor)
    (pages : list image) (kwargs : Kwargs) (s1 s2 : State) :
  pure_predictor (det_predictor self) ->
  pure_predictor (reco_predictor self) ->
  snd (forward self pages kwargs s1) = snd (forward self pages kwargs s2).
Proof.
  intros Hdet Hreco. unfold forward.
  destruct (bad_ndim pages); [done|].
  unfold bind, invoke_pure, invoke; simpl.
  pose proof (Hdet pages kwargs (world s1) (world s2)) as E.
  destruct (det_predictor self pages kwargs (world s1)) as [w1 r1],
           (det_predictor self pages kwargs (world s2)) as [w2 r2].
  simpl in E. subst r2. destruct r1 as [e|lp]; [done|]. simpl.
  destruct (_prepare_crops pages lp (channels_last_of pages)
              (assume_straight_pages self)) as [e|[crops lp']]; [done|].
  simpl.
  pose proof (Hreco (flatten_crops crops) kwargs w1 w2) as E.
  destruct (reco_predictor self (flatten_crops crops) kwargs w1) as [w1' r1],
           (reco_predictor self (flatten_crops crops) kwargs w2) as [w2' r2].
  simpl in E. subst r2. destruct r1 as [e|wp]; [done|]. simpl.
  by destruct (_process_predictions lp' wp
                 (negb (export_as_straight_boxes (doc_builder self))))
    as [e|[boxes tp]].
Qed.

(** A run of [predict] on a valid batch, with predictors that keep their
    contracts, stops in one of three ways: the detection predictor raises,
    the recognition predictor raises, or all five calls are made on
    sequences with one entry per page and a document is returned. *)
Lemma predict_runs (self : OCRPredictor) (pages : list image) (kwargs : Kwargs)
    (s : State) :
  bad_ndim pages = false ->
  det_contract (det_predictor self) ->
  reco_contract (reco_predictor self) ->
  (exists w e,
     det_predictor self pages kwargs (world s) = (w, inl e)
     /\ predict self pages kwargs s
        = ({| world := w; calls := calls s ++ [det_call pages kwargs] |}, inl e))
  \/ (exists w lp crops lp' w' e,
        det_predictor self pages kwargs (world s) = (w, inr lp)
        /\ spec_prepare_crops pages lp (channels_last_of pages)
             (assume_straight_pages self) = inr (crops, lp')
        /\ reco_predictor self (flatten_crops crops) kwargs w = (w', inl e)
        /\ predict self pages kwargs s
           = ({| world := w';
                 calls := calls s ++
                   [det_call pages kwargs;
                    crops_call pages lp (channels_last_of pages)
                      (assume_straight_pages self);
                    reco_call (flatten_crops crops) kwargs] |}, inl e))
  \/ (exists lp crops lp' w' wp boxes tp doc,
        length lp = length pages
        /\ length crops = length pages
        /\ length lp' = length pages
        /\ length wp = sum_list (map length lp')
        /\ length boxes = length pages
        /\ length tp = length pages
        /\ spec_build (doc_builder self) boxes tp
             (map (page_shape (channels_last_of pages)) pages) = inr doc
        /\ predict self pages kwargs s
           = ({| world := w';
                 calls := calls s ++
                   [det_call pages kwargs;
                    crops_call pages lp (channels_last_of pages)
                      (assume_straight_pages self);
                    reco_call (flatten_crops crops) kwargs;
                    process_call lp' wp
                      (negb (export_as_straight_boxes (doc_builder self)));
                    build_call boxes tp
                      (map (page_shape (channels_last_of pages)) pages)] |},
              inr doc)).
Proof.
  intros Hok Hdetc Hrecoc. unfold predict.
  destruct (forward_runs (H := spec_helpers) self pages kwargs s)
    as [Hbad|w e Hbad Hdet|w lp e Hbad Hdet Hcrops
        |w lp crops lp' w' e Hbad Hdet Hcrops Hreco
        |w lp crops lp' w' wp e Hbad Hdet Hcrops Hreco Hproc
        |w lp crops lp' w' wp boxes tp r Hbad Hdet Hcrops Hreco Hproc Hbuild];
    simpl in *.
  - congruence.
  - left. by exists w, e.
  - destruct (spec_prepare_crops_returns pages lp (channels_last_of pages)
                (assume_straight_pages self)) as (? & ? & Heq & _).
    congruence.
  - right; left. by exists w, lp, crops, lp', w', e.
  - exfalso.
    destruct (spec_prepare_crops_returns pages lp (channels_last_of pages)
                (assume_straight_pages self)) as (c0 & l0 & Heq & _ & _ & Hcnt).
    rewrite Hcrops in Heq. injection Heq as <- <-.
    assert (Hwp : length wp = sum_list (map length lp')).
    { rewrite <- Hcnt, <- flatten_length.
      apply (Hrecoc (flatten_crops crops) kwargs w). by rewrite Hreco. }
    destruct (spec_process_predictions_returns lp' wp
                (negb (export_as_straight_boxes (doc_builder self))) Hwp)
      as (? & ? & Heq & _).
    congruence.
  - right; right.
    assert (Hlp : length lp = length pages).
    { apply (Hdetc pages kwargs (world s)). by rewrite Hdet. }
    destruct (spec_prepare_crops_returns pages lp (channels_last_of pages)
                (assume_straight_pages self))
      as (c0 & l0 & Heq & Hlc & Hll & Hcnt).
    rewrite Hcrops in Heq. injection Heq as <- <-.
    assert (Hwp : length wp = sum_list (map length lp')).
    { rewrite <- Hcnt, <- flatten_length.
      apply (Hrecoc (flatten_crops crops) kwargs w). by rewrite Hreco. }
    destruct (spec_process_predictions_returns lp' wp
                (negb (export_as_straight_boxes (doc_builder self))) Hwp)
      as (b0 & t0 & Heq & Hlb & Hlt).
    rewrite Hproc in Heq. injection Heq as <- <-.
    destruct (spec_build_pages (doc_builder self) boxes tp
                (map (page_shape (channels_last_of pages)) pages))
      as (doc & Hdoc & _); [rewrite length_map; lia ..|].
    exists lp, crops, lp', w', wp, boxes, tp, doc.
    rewrite <- Hbuild, Hdoc.
    repeat split; try done; lia.
Qed.

(** C2: for a batch whose pages all have three dimensions, and predictors
    that keep their interface contracts, [predict] either passes on an
    exception raised by one of the two predictors or returns a document
    with as many pages as the batch, the page at each position holding the
    two axes of the input page at that position that the layout selects. *)
Theorem predict_page_count (self : OCRPredictor) (pages : list image)
    (kwargs : Kwargs) (s : State) :
  Forall (fun page => ndim page = 3) pages ->
  det_contract (det_predictor self) ->
  reco_contract (reco_predictor self) ->
  match snd (predict self pages kwargs s) with
  | inr doc =>
      length (doc_pages doc) = length pages
      /\ forall i page,
           pages !! i = Some page ->
           exists dp (a b c : N),
             doc_pages doc !! i = Some dp
             /\ shape page = [a; b; c]
             /\ dimensions dp = (if channels_last_of pages then [a; b] else [b; c])
  | inl e =>
      (exists w, snd (det_predictor self pages kwargs w) = inl e)
      \/ (exists crops w, snd (reco_predictor self crops kwargs w) = inl e)
  end.
Proof.
  intros Hvalid Hdetc Hrecoc.
  pose proof (proj2 (bad_ndim_false pages) Hvalid) as Hok.
  destruct (predict_runs self pages kwargs s Hok Hdetc Hrecoc)
    as [(w & e & Hdet & ->)
       |[(w & lp & crops & lp' & w' & e & Hdet & Hcrops & Hreco & ->)
        |(lp & crops & lp' & w' & wp & boxes & tp & doc
          & Hlp & Hlc & Hll & Hwp & Hlb & Hlt & Hdoc & ->)]]; simpl.
  - left. exists (world s). by rewrite Hdet.
  - right. exists (flatten_crops crops), w. by rewrite Hreco.
  - destruct (spec_build_pages (doc_builder self) boxes tp
                (map (page_shape (channels_last_of pages)) pages))
      as (doc' & Hdoc' & Hlen & Hdims); [rewrite length_map; lia ..|].
    rewrite Hdoc in Hdoc'. injection Hdoc' as <-.
    split; [by rewrite Hlen, length_map|].
    intros i page Hi.
    assert (Hnd : ndim page = 3).
    { rewrite Forall_forall in Hvalid. apply Hvalid.
      apply list_elem_of_lookup. by exists i. }
    destruct (page_shape_3d page Hnd) as (a & b & c & Hs & Htrue & Hfalse).
    destruct (Hdims i (page_shape (channels_last_of pages) page))
      as (dp & Hdp & Hdim).
    { by rewrite list_lookup_fmap, Hi. }
    exists dp, a, b, c. split; [exact Hdp|]. split; [exact Hs|].
    rewrite Hdim. destruct (channels_last_of pages); by rewrite ?Htrue, ?Hfalse.
Qed.

(** C7: the empty batch passes the dimension check.  With predictors that
    keep their contracts, [predict] on it either passes on an exception of
    a predictor called on an empty batch, or returns a document without
    pages after exactly these calls: detection on no page, crop extraction
    on no page and no prediction, recognition on no crop, assembly on no
    region group and no result, and the builder on three empty lists. *)
Theorem predict_empty_batch (self : OCRPredictor) (kwargs : Kwargs) (s : State) :
  det_contract (det_predictor self) ->
  reco_contract (reco_predictor self) ->
  bad_ndim (@nil image) = false
  /\ match predict self [] kwargs s with
     | (s', inr doc) =>
         doc_pages doc = []
         /\ calls s'
            = calls s ++
              [det_call [] kwargs;
               crops_call [] [] true (assume_straight_pages self);
               reco_call [] kwargs;
               process_call [] [] (negb (export_as_straight_boxes (doc_builder self)));
               build_call [] [] []]
     | (s', inl e) =>
         (exists w, snd (det_predictor self [] kwargs w) = inl e)
         \/ (exists w, snd (reco_predictor self [] kwargs w) = inl e)
     end.
Proof.
  intros Hdetc Hrecoc. split; [reflexivity|].
  destruct (predict_runs self [] kwargs s eq_refl Hdetc Hrecoc)
    as [(w & e & Hdet & ->)
       |[(w & lp & crops & lp' & w' & e & Hdet & Hcrops & Hreco & ->)
        |(lp & crops & lp' & w' & wp & boxes & tp & doc
          & Hlp & Hlc & Hll & Hwp & Hlb & Hlt & Hdoc & ->)]].
  - left. exists (world s). by rewrite Hdet.
  - cbn in Hcrops. injection Hcrops as <- <-.
    right. exists w. change (flatten_crops []) with (@nil image) in Hreco.
    by rewrite Hreco.
  - apply nil_length_inv in Hlp, Hlc, Hll, Hlb, Hlt. subst.
    cbn in Hwp. apply nil_length_inv in Hwp. subst.
    cbn in Hdoc. injection Hdoc as <-. done.
Qed.

(** C8: with detection and recognition predictors whose outcome is a
    function of their inputs, two runs of [predict] by the same predictor
    object on the same batch with the same keyword arguments, from any two
    states, raise the same exception or return the same document. *)
Theorem predict_deterministic (self : OCRPredictor) (pages : list image)
    (kwargs : Kwargs) (s1 s2 : State) :
  pure_predictor (det_predictor self) ->
  pure_predictor (reco_predictor self) ->
  snd (predict self pages kwargs s1) = snd (predict self pages kwargs s2).
Proof.
  intros Hdet Hreco. unfold predict. by apply forward_deterministic.
Qed.

End PredictFacts.

(** ** The properties on the test doubles *)

Section Instances.
Import Doubles.
#[local] Existing Instance dom.
#[local] Existing Instance geom.
#[local] Existing Instance spec_helpers.

Lemma det_keeps_contract : det_contract det.
Proof.
  intros pages kwargs w lp Hret. simpl in Hret. injection Hret as <-.
  apply length_map.
Qed.

Lemma reco_keeps_contract : reco_contract reco.
Proof.
  intros crops kwargs w wp Hret. simpl in Hret. injection Hret as <-.
  apply length_map.
Qed.

Lemma det_is_pure : pure_predictor det.
Proof. by intros pages kwargs w w'. Qed.

Lemma reco_is_pure : pure_predictor reco.
Proof. by intros crops kwargs w w'. Qed.

(** The scenario of the test suite: eight pages in, eight pages out. *)
Example predict_eight_pages :
  exists doc,
    snd (predict predictor (replicate 8 (hwc 256 512 3)) tt s0) = inr doc
    /\ length (doc_pages doc) = 8.
Proof. eexists. split; [vm_compute; reflexivity | reflexivity]. Qed.

(** A four-dimensional page behind a well-formed one. *)
Lemma forward_rejects_bad_ndim_witness :
  Exists (fun page => ndim page <> 3) [hwc 256 512 3; batched]
  /\ forward predictor [hwc 256 512 3; batched] tt s0
     = (s0, inl (ValueError
          "incorrect input shape: all pages are expected to be multi-channel 2D images.")).
Proof.
  assert (Hbad : Exists (fun page => ndim page <> 3) [hwc 256 512 3; batched]).
  { apply Exists_cons_tl, Exists_cons_hd. vm_compute. discriminate. }
  split; [exact Hbad|].
  exact (forward_rejects_bad_ndim predictor _ tt s0 Hbad).
Defined.


(** One channel-first page: the builder is handed its last two axes. *)
Lemma page_shapes_follow_layout_witness :
  Forall (fun page => ndim page = 3) [chw 3 32 64]
  /\ snd (forward predictor [chw 3 32 64] tt s0)
     = DocumentBuilder_call (doc_builder predictor) [[full_box]] [[a_word]]
         [[32; 64]%N]
  /\ exists doc,
       snd (forward predictor [chw 3 32 64] tt s0) = inr doc
       /\ map dimensions (doc_pages doc) = [[32; 64]%N].
Proof.
  assert (Hvalid : Forall (fun page => ndim page = 3) [chw 3 32 64]).
  { repeat constructor. }
  split; [exact Hvalid|].
  destruct (page_shapes_follow_layout predictor _ tt s0 Hvalid) as [_ Happ].
  destruct (Happ 1 [[full_box]] [[chw 3 32 64]] [[full_box]] 2 [a_word]
              [[full_box]] [[a_word]] eq_refl eq_refl eq_refl eq_refl)
    as (shapes & Hres & Hlen & Hsh).
  destruct (Hsh 0 (chw 3 32 64) eq_refl) as (a & b & c & Heq & Hzero).
  injection Heq as <- <- <-.
  destruct shapes as [|sh [|sh' shapes]]; [discriminate Hlen | | discriminate Hlen].
  injection Hzero as ->. split; [exact Hres|].
  eexists. split; [rewrite Hres; reflexivity | reflexivity].
Defined.

(** One channel-first page, with helpers that show their flags: crop
    extraction is called with the flag unset, the builder with the last
    two axes. *)
Lemma channels_last_single_decision_witness :
  bad_ndim [chw 3 32 64] = false
  /\ det_predictor predictor [chw 3 32 64] tt (world s0) = (1, inr [[full_box]])
  /\ _prepare_crops (Helpers := flag_helpers) [chw 3 32 64] [[full_box]] false true
     = inr ([[flag_crop (chw 3 32 64) false true]], [[full_box]])
  /\ forward (H := flag_helpers) predictor [chw 3 32 64] tt s0
     = ({| world := 2;
           calls :=
             [det_call [chw 3 32 64] tt;
              crops_call [chw 3 32 64] [[full_box]] false true;
              reco_call [flag_crop (chw 3 32 64) false true] tt;
              process_call [[full_box]] [a_word] true;
              build_call [[rotated full_box]] [[a_word]] [[32; 64]%N]] |},
        DocumentBuilder_call (Helpers := flag_helpers) (doc_builder predictor)
          [[rotated full_box]] [[a_word]] [[32; 64]%N]).
Proof.
  split; [reflexivity|]. split; [reflexivity|]. split; [reflexivity|].
  destruct (channels_last_single_decision (H := flag_helpers) predictor
              [chw 3 32 64] tt s0) as (_ & _ & Happ).
  exact (Happ 1 [[full_box]] eq_refl eq_refl 2 [a_word] [[rotated full_box]]
           [[a_word]] eq_refl eq_refl).
Defined.

(** Default construction, with helpers that show their flags: the
    assembly step is called with the flag set, so the builder gets the
    boxes after the rotation-aware post-processing. *)
Lemma assembly_flag_negates_export_witness :
  export_as_straight_boxes (doc_builder predictor) = false
  /\ _process_predictions (Helpers := flag_helpers) [[full_box]] [a_word] true
     = inr ([[rotated full_box]], [[a_word]])
  /\ forward (H := flag_helpers) predictor [hwc 4 5 3] tt s0
     = ({| world := 2;
           calls :=
             [det_call [hwc 4 5 3] tt;
              crops_call [hwc 4 5 3] [[full_box]] true true;
              reco_call [flag_crop (hwc 4 5 3) true true] tt;
              process_call [[full_box]] [a_word] true;
              build_call [[rotated full_box]] [[a_word]] [[4; 5]%N]] |},
        DocumentBuilder_call (Helpers := flag_helpers) (doc_builder predictor)
          [[rotated full_box]] [[a_word]] [[4; 5]%N]).
Proof.
  split; [reflexivity|]. split; [reflexivity|].
  destruct (assembly_flag_negates_export (H := flag_helpers) predictor
              [hwc 4 5 3] tt s0) as (_ & _ & Happ).
  exact (Happ 1 [[full_box]] [[flag_crop (hwc 4 5 3) true true]] [[full_box]] 2
           [a_word] eq_refl eq_refl eq_refl eq_refl).
Defined.

(** A returning run on two pages. *)
Lemma predictors_invoked_once_witness :
  exists s' doc evs lp crops lp',
    forward predictor [hwc 4 5 3; hwc 6 7 3] tt s0 = (s', inr doc)
    /\ calls s' = calls s0 ++ evs
    /\ List.filter is_det_call evs = [det_call [hwc 4 5 3; hwc 6 7 3] tt]
    /\ snd (det_predictor predictor [hwc 4 5 3; hwc 6 7 3] tt (world s0)) = inr lp
    /\ _prepare_crops [hwc 4 5 3; hwc 6 7 3] lp
         (channels_last_of [hwc 4 5 3; hwc 6 7 3]) (assume_straight_pages predictor)
       = inr (crops, lp')
    /\ List.filter is_reco_call evs = [reco_call (flatten_crops crops) tt]
    /\ (forall i j page_crops crop,
          crops !! i = Some page_crops ->
          page_crops !! j = Some crop ->
          flatten_crops crops !! (sum_list (map length (take i crops)) + j)
          = Some crop)
    /\ length (flatten_crops crops) = sum_list (map length crops)
    /\ regroup (map length crops) (flatten_crops crops) = crops
    /\ (exists wp flag, process_call lp' wp flag ∈ evs)
    /\ exists w wp boxes tp,
         det_predictor predictor [hwc 4 5 3; hwc 6 7 3] tt (world s0) = (w, inr lp)
         /\ reco_predictor predictor (flatten_crops crops) tt w = (world s', inr wp)
         /\ _process_predictions lp' wp
              (negb (export_as_straight_boxes (doc_builder predictor)))
            = inr (boxes, tp)
         /\ DocumentBuilder_call (doc_builder predictor) boxes tp
              (map (page_shape (channels_last_of [hwc 4 5 3; hwc 6 7 3]))
                 [hwc 4 5 3; hwc 6 7 3]) = inr doc.
Proof.
  destruct (forward predictor [hwc 4 5 3; hwc 6 7 3] tt s0) as [s' [e|doc]] eqn:Hrun.
  { vm_compute in Hrun. discriminate Hrun. }
  destruct (predictors_invoked_once predictor _ tt s0 s' doc Hrun)
    as (evs & lp & crops & lp' & Hconcl).
  exists s', doc, evs, lp, crops, lp'. split; [reflexivity | exact Hconcl].
Defined.

(** Two pages of different sizes and layouts named alike. *)
Lemma predict_page_count_witness :
  Forall (fun page => ndim page = 3) [hwc 256 512 3; hwc 100 80 1]
  /\ det_contract det
  /\ reco_contract reco
  /\ exists doc,
       snd (predict predictor [hwc 256 512 3; hwc 100 80 1] tt s0) = inr doc
       /\ length (doc_pages doc) = 2
       /\ map dimensions (doc_pages doc) = [[256; 512]; [100; 80]]%N.
Proof.
  assert (Hvalid : Forall (fun page => ndim page = 3) [hwc 256 512 3; hwc 100 80 1]).
  { repeat constructor. }
  split; [exact Hvalid|].
  split; [exact det_keeps_contract|]. split; [exact reco_keeps_contract|].
  pose proof (predict_page_count predictor _ tt s0 Hvalid
                det_keeps_contract reco_keeps_contract) as Hthm.
  destruct (snd (predict predictor [hwc 256 512 3; hwc 100 80 1] tt s0))
    as [e|doc] eqn:Hrun.
  { vm_compute in Hrun. discriminate Hrun. }
  exists doc. split; [reflexivity|]. destruct Hthm as [Hlen Hdims].
  split; [exact Hlen|].
  vm_compute in Hrun. injection Hrun as <-. reflexivity.
Defined.

(** The empty batch. *)
Lemma predict_empty_batch_witness :
  det_contract det
  /\ reco_contract reco
  /\ bad_ndim (@nil image) = false
  /\ match predict predictor [] tt s0 with
     | (s', inr doc) =>
         doc_pages doc = []
         /\ calls s'
            = calls s0 ++
              [det_call [] tt;
               crops_call [] [] true (assume_straight_pages predictor);
               reco_call [] tt;
               process_call [] []
                 (negb (export_as_straight_boxes (doc_builder predictor)));
               build_call [] [] []]
     | (s', inl e) =>
         (exists w, snd (det_predictor predictor [] tt w) = inl e)
         \/ (exists w, snd (reco_predictor predictor [] tt w) = inl e)
     end.
Proof.
  split; [exact det_keeps_contract|]. split; [exact reco_keeps_contract|].
  exact (predict_empty_batch predictor tt s0 det_keeps_contract reco_keeps_contract).
Defined.

(** Two runs from different states. *)
Lemma predict_deterministic_witness :
  pure_predictor det
  /\ pure_predictor reco
  /\ snd (predict predictor [hwc 4 5 3] tt s0)
     = snd (predict predictor [hwc 4 5 3] tt {| world := 7; calls := [det_call [] tt] |}).
Proof.
  split; [exact det_is_pure|]. split; [exact reco_is_pure|].
  exact (predict_deterministic predictor [hwc 4 5 3] tt s0 _ det_is_pure reco_is_pure).
Defined.

End Instances.

(** * Further properties *)

(** ** The vocabulary table as a whole *)

Section VocabTable.
Import Vocabs.

Lemma VOCABS_loads : is_Some VOCABS.
Proof. apply (bool_decide_unpack _). vm_compute. exact I. Qed.

Lemma VOCABS_at_lookup (V : gmap string pystr) (k : string) :
  VOCABS = Some V -> VOCABS_at k = V !! k.
Proof.
  intros HV. unfold VOCABS_at.
  exact (f_equal (fun o => V' ← o; getitem V' k) HV).
Qed.

Lemma VOCABS_dom (V : gmap string pystr) :
  VOCABS = Some V ->
  dom V = (list_to_set (display_keys ++ assigned_keys) : gset string).
Proof.
  intros HV.
  assert (Hdom : dom <$> VOCABS
                 = Some (list_to_set (display_keys ++ assigned_keys) : gset string)).
  { apply (bool_decide_unpack _). vm_compute. exact I. }
  pose proof (eq_trans (f_equal (fmap dom) (eq_sym HV)) Hdom) as Heq.
  exact (Some_inj _ _ Heq).
Qed.

Lemma VOCABS_all_NoDup (V : gmap string pystr) :
  VOCABS = Some V -> map_Forall (fun _ (v : pystr) => NoDup v) V.
Proof.
  intros HV.
  assert (Hall : from_option (map_Forall (fun _ (v : pystr) => NoDup v)) False VOCABS).
  { apply (bool_decide_unpack _). vm_compute. exact I. }
  exact (eq_ind _ (from_option (map_Forall (fun _ (v : pystr) => NoDup v)) False)
           Hall _ HV).
Qed.

Lemma VOCABS_keeps_display (V : gmap string pystr) :
  VOCABS = Some V ->
  map_Forall (fun k (v : pystr) => V !! k = Some v) VOCABS_display.
Proof.
  intros HV.
  assert (Hall :
    from_option
      (fun V' => map_Forall (fun k (v : pystr) => V' !! k = Some v) VOCABS_display)
      False VOCABS).
  { apply (bool_decide_unpack _). vm_compute. exact I. }
  exact (eq_ind _
           (from_option
              (fun V' => map_Forall (fun k (v : pystr) => V' !! k = Some v)
                           VOCABS_display) False)
           Hall _ HV).
Qed.

(** The module loads, and the loaded table has exactly the ten keys of the
    display and the eight assigned ones: indexing it with any other key
    is a [KeyError]. *)
Theorem vocabs_keys (k : string) :
  is_Some VOCABS
  /\ (is_Some (VOCABS_at k) <-> k ∈ display_keys ++ assigned_keys).
Proof.
  split; [exact VOCABS_loads|].
  destruct VOCABS_loads as [V HV].
  rewrite (VOCABS_at_lookup V k HV), <- elem_of_dom, (VOCABS_dom V HV).
  exact (elem_of_list_to_set (C := gset string) k (display_keys ++ assigned_keys)).
Qed.

(** No vocabulary of the table lists a character twice: a character has
    one index in its vocabulary. *)
Theorem vocabs_no_duplicates (k : string) (vocab : pystr) :
  VOCABS_at k = Some vocab -> NoDup vocab.
Proof.
  destruct VOCABS_loads as [V HV].
  rewrite (VOCABS_at_lookup V k HV). intros Hk.
  exact (VOCABS_all_NoDup V HV k vocab Hk).
Qed.

(** The eight assignments add keys only: every entry of the display is in
    the loaded table with the value the display gave it. *)
Theorem vocabs_display_kept (k : string) (vocab : pystr) :
  VOCABS_display !! k = Some vocab -> VOCABS_at k = Some vocab.
Proof.
  destruct VOCABS_loads as [V HV].
  rewrite (VOCABS_at_lookup V k HV). intros Hk.
  exact (VOCABS_keeps_display V HV k vocab Hk).
Qed.

(** The Arabic vocabulary is the concatenation of seven entries, in the
    order of the assignment; what it shares with the Latin vocabulary is
    the ASCII digits and punctuation, so it holds no ASCII letter. *)
Theorem vocabs_arabic :
  exists digits letters punctuation hindi aletters persian diacritics apunct
         latin arabic,
    VOCABS_at "digits" = Some digits
    /\ VOCABS_at "ascii_letters" = Some letters
    /\ VOCABS_at "punctuation" = Some punctuation
    /\ VOCABS_at "hindi_digits" = Some hindi
    /\ VOCABS_at "arabic_letters" = Some aletters
    /\ VOCABS_at "persian_letters" = Some persian
    /\ VOCABS_at "arabic_diacritics" = Some diacritics
    /\ VOCABS_at "arabic_punctuation" = Some apunct
    /\ VOCABS_at "latin" = Some latin
    /\ VOCABS_at "arabic" = Some arabic
    /\ arabic
       = digits ++ hindi ++ aletters ++ persian ++ diacritics ++ apunct ++ punctuation
    /\ (forall c, c ∈ arabic /\ c ∈ latin <-> c ∈ digits \/ c ∈ punctuation)
    /\ (forall c, c ∈ arabic -> c ∉ letters).
Proof.
  set (hindi := lit "٠١٢٣٤٥٦٧٨٩").
  set (aletters := lit "ءآأؤإئابةتثجحخدذرزسشصضطظعغـفقكلمنهوىي").
  set (persian := lit "پچڢڤگ").
  set (diacritics := lit "ًٌٍَُِّْ").
  set (apunct := lit "؟؛«»—").
  set (latin := (string_digits ++ string_ascii_letters) ++ string_punctuation).
  set (arabic := string_digits ++ hindi ++ aletters ++ persian ++ diacritics
                   ++ apunct ++ string_punctuation).
  exists string_digits, string_ascii_letters, string_punctuation, hindi, aletters,
    persian, diacritics, apunct, latin, arabic.
  do 10 (split; [vm_compute; reflexivity|]).
  split; [reflexivity|].
  assert (Hshared : Forall (fun c => c ∈ latin ->
                              c ∈ string_digits \/ c ∈ string_punctuation) arabic).
  { apply (bool_decide_unpack _). vm_compute. exact I. }
  assert (Hletters : Forall (fun c => c ∉ string_ascii_letters) arabic).
  { apply (bool_decide_unpack _). vm_compute. exact I. }
  rewrite Forall_forall in Hshared, Hletters.
  split; [|exact Hletters].
  intros c. split.
  - intros [Ha Hl]. by apply Hshared.
  - intros [Hd|Hp]; split.
    + apply elem_of_app. by left.
    + do 2 (apply elem_of_app; left). exact Hd.
    + do 6 (apply elem_of_app; right). exact Hp.
    + apply elem_of_app. by right.
Qed.

(** The legacy French vocabulary starts like the English one, through the
    degree sign, but puts the accented letters before the currency signs:
    the English vocabulary is not a prefix of it.  As sets of characters
    it holds the English vocabulary and lies in the French one, which has
    three characters more. *)
Theorem vocabs_legacy_french :
  exists latin english legacy french,
    VOCABS_at "latin" = Some latin
    /\ VOCABS_at "english" = Some english
    /\ VOCABS_at "legacy_french" = Some legacy
    /\ VOCABS_at "french" = Some french
    /\ (latin ++ lit "°") `prefix_of` english
    /\ (latin ++ lit "°") `prefix_of` legacy
    /\ ~ english `prefix_of` legacy
    /\ (forall c, c ∈ english -> c ∈ legacy)
    /\ (forall c, c ∈ legacy -> c ∈ french)
    /\ (forall c, c ∈ french -> c ∈ legacy \/ c ∈ lit "üÊÜ").
Proof.
  set (latin := (string_digits ++ string_ascii_letters) ++ string_punctuation).
  set (english := (latin ++ lit "°") ++ lit "£€¥¢฿").
  set (legacy := ((latin ++ lit "°") ++ lit "àâéèêëîïôùûçÀÂÉÈËÎÏÔÙÛÇ")
                   ++ lit "£€¥¢฿").
  set (french := english ++ lit "àâéèêëîïôùûüçÀÂÉÈÊËÎÏÔÙÛÜÇ").
  exists latin, english, legacy, french.
  do 4 (split; [vm_compute; reflexivity|]).
  split; [by apply prefix_app_r|].
  split; [subst legacy; rewrite <- (assoc_L (++)); by apply prefix_app_r|].
  split; [apply (bool_decide_unpack _); vm_compute; exact I|].
  split; [|split].
  - apply Forall_forall. apply (bool_decide_unpack _). vm_compute. exact I.
  - apply Forall_forall. apply (bool_decide_unpack _). vm_compute. exact I.
  - apply Forall_forall. apply (bool_decide_unpack _). vm_compute. exact I.
Qed.

End VocabTable.

(** ** More on [forward], for any helpers *)

Section ForwardMore.
Context {D : Domain} {H : Helpers}.

(** Case analysis on a membership in a run's log. *)
Ltac in_log Hin :=
  repeat (apply elem_of_cons in Hin as [Hin | Hin]);
  try (by apply elem_of_nil in Hin);
  try discriminate Hin;
  try (injection Hin as -> -> -> ->);
  try (injection Hin as -> -> ->);
  try (injection Hin as -> ->).




(** Arguments are passed on as they are, in every run.  The detection
    predictor is called with the batch and the keyword arguments, from the
    state the run starts in; crop extraction with the batch and the flag
    [assume_straight_pages] (which the constructor sets from its argument,
    [True] when omitted); the recognition predictor with the flat batch
    and the same keyword arguments, from the state detection left.  What
    each of the three raises on these arguments, the run raises, in the
    state that callee left; when recognition returns, the run ends in the
    state it left.  The log of every run says the same. *)
Theorem forward_passes_arguments (self : OCRPredictor) (pages : list image)
    (kwargs : Kwargs) (s : State) :
  (forall det reco asp export,
     assume_straight_pages (OCRPredictor_init det reco asp export)
     = default true asp)
  /\ (exists evs,
        calls (fst (forward self pages kwargs s)) = calls s ++ evs
        /\ (forall ps kw, det_call ps kw ∈ evs -> ps = pages /\ kw = kwargs)
        /\ (forall ps lp cl asp,
              crops_call ps lp cl asp ∈ evs ->
              ps = pages /\ asp = assume_straight_pages self)
        /\ (forall crops kw, reco_call crops kw ∈ evs -> kw = kwargs))
  /\ (forall w e,
        bad_ndim pages = false ->
        det_predictor self pages kwargs (world s) = (w, inl e) ->
        forward self pages kwargs s
        = ({| world := w; calls := calls s ++ [det_call pages kwargs] |}, inl e))
  /\ (forall w lp e,
        bad_ndim pages = false ->
        det_predictor self pages kwargs (world s) = (w, inr lp) ->
        _prepare_crops pages lp (channels_last_of pages) (assume_straight_pages self)
        = inl e ->
        forward self pages kwargs s
        = ({| world := w;
              calls := calls s ++
                [det_call pages kwargs;
                 crops_call pages lp (channels_last_of pages)
                   (assume_straight_pages self)] |},
           inl e))
  /\ (forall w lp crops lp' w' e,
        bad_ndim pages = false ->
        det_predictor self pages kwargs (world s) = (w, inr lp) ->
        _prepare_crops pages lp (channels_last_of pages) (assume_straight_pages self)
        = inr (crops, lp') ->
        reco_predictor self (flatten_crops crops) kwargs w = (w', inl e) ->
        forward self pages kwargs s
        = ({| world := w';
              calls := calls s ++
                [det_call pages kwargs;
                 crops_call pages lp (channels_last_of pages)
                   (assume_straight_pages self);
                 reco_call (flatten_crops crops) kwargs] |},
           inl e))
  /\ (forall w lp crops lp' w' wp,
        bad_ndim pages = false ->
        det_predictor self pages kwargs (world s) = (w, inr lp) ->
        _prepare_crops pages lp (channels_last_of pages) (assume_straight_pages self)
        = inr (crops, lp') ->
        reco_predictor self (flatten_crops crops) kwargs w = (w', inr wp) ->
        world (fst (forward self pages kwargs s)) = w'
        /\ exists evs,
             calls (fst (forward self pages kwargs s))
             = calls s ++
               [det_call pages kwargs;
                crops_call pages lp (channels_last_of pages)
                  (assume_straight_pages self);
                reco_call (flatten_crops crops) kwargs] ++ evs).
Proof.
  split; [done|]. split.
  { destruct (forward_runs self pages kwargs s); simpl;
      (eexists; split; [first [reflexivity | symmetry; apply app_nil_r]|]);
      (split; [intros ps kw Hin; by in_log Hin|]);
      (split; [intros ps lp0 cl asp Hin; by in_log Hin|]);
      intros crops0 kw Hin; by in_log Hin. }
  split.
  { intros w e Hbad Hdet. apply forward_run_unique. by apply run_det_raises. }
  split.
  { intros w lp e Hbad Hdet Hcrops. apply forward_run_unique.
    by apply run_crops_raises. }
  split.
  { intros w lp crops lp' w' e Hbad Hdet Hcrops Hreco.
    apply forward_run_unique. by eapply run_reco_raises. }
  intros w lp crops lp' w' wp Hbad Hdet Hcrops Hreco.
  destruct (_process_predictions lp' wp
              (negb (export_as_straight_boxes (doc_builder self))))
    as [e|[boxes tp]] eqn:Hproc.
  - rewrite (forward_run_unique self pages kwargs s _
               (run_process_raises self pages kwargs s w lp crops lp' w' wp e
                  Hbad Hdet Hcrops Hreco Hproc)).
    simpl. split; [done|]. by eexists [_].
  - rewrite (forward_run_unique self pages kwargs s _
               (run_ends self pages kwargs s w lp crops lp' w' wp boxes tp _
                  Hbad Hdet Hcrops Hreco Hproc eq_refl)).
    simpl. split; [done|]. by eexists [_; _].
Qed.

(** The layout is read off the first page alone.  A later page with
    three axes is handed to the document builder by its first two axes
    when the first page is a numpy array and by its last two when it is
    not, whatever the class of the later page itself: in a batch of mixed
    classes the later pages are read in the layout of the first.  Once
    the four earlier stages have returned, the outcome of the run is the
    outcome of the builder on a list of shapes with that entry; the log of
    every run says the same. *)
Theorem later_pages_follow_first_page (self : OCRPredictor) (first : image)
    (rest : list image) (kwargs : Kwargs) (s : State) (i : nat) (page : image)
    (a b c : N) :
  rest !! i = Some page ->
  shape page = [a; b; c] ->
  (exists evs,
     calls (fst (forward self (first :: rest) kwargs s)) = calls s ++ evs
     /\ forall boxes tp shapes,
          build_call boxes tp shapes ∈ evs ->
          shapes !! S i
          = Some (if bool_decide (type_of first = ndarray) then [a; b] else [b; c]))
  /\ (forall w lp crops lp' w' wp boxes tp,
        bad_ndim (first :: rest) = false ->
        det_predictor self (first :: rest) kwargs (world s) = (w, inr lp) ->
        _prepare_crops (first :: rest) lp (channels_last_of (first :: rest))
          (assume_straight_pages self) = inr (crops, lp') ->
        reco_predictor self (flatten_crops crops) kwargs w = (w', inr wp) ->
        _process_predictions lp' wp
          (negb (export_as_straight_boxes (doc_builder self))) = inr (boxes, tp) ->
        exists shapes,
          snd (forward self (first :: rest) kwargs s)
          = DocumentBuilder_call (doc_builder self) boxes tp shapes
          /\ shapes !! S i
             = Some (if bool_decide (type_of first = ndarray)
                     then [a; b] else [b; c])).
Proof.
  intros Hi Hshape.
  assert (Hsh : map (page_shape (channels_last_of (first :: rest))) (first :: rest)
                  !! S i
                = Some (if bool_decide (type_of first = ndarray)
                        then [a; b] else [b; c])).
  { change (channels_last_of (first :: rest))
      with (bool_decide (type_of first = ndarray)).
    simpl. rewrite list_lookup_fmap, Hi. simpl. unfold page_shape.
    rewrite Hshape. by destruct (bool_decide (type_of first = ndarray)). }
  split.
  { destruct (forward_runs self (first :: rest) kwargs s); simpl;
      (eexists; split; [first [reflexivity | symmetry; apply app_nil_r]|]);
      intros bs tp0 shapes Hin; in_log Hin; exact Hsh. }
  intros w lp crops lp' w' wp boxes tp Hbad Hdet Hcrops Hreco Hproc.
  exists (map (page_shape (channels_last_of (first :: rest))) (first :: rest)).
  split; [|exact Hsh].
  by rewrite (forward_run_unique self (first :: rest) kwargs s _
                (run_ends self (first :: rest) kwargs s w lp crops lp' w' wp
                   boxes tp _ Hbad Hdet Hcrops Hreco Hproc eq_refl)).
Qed.

(** How the stages feed one another in a run that returns: recognition
    starts from the predictor state that detection left and leaves the
    state the run ends in; the assembly step gets the regions that crop
    extraction returned (not those of the detector) with the recognizer's
    results; the document returned is the builder's, as it is. *)
Theorem forward_data_flow (self : OCRPredictor) (pages : list image)
    (kwargs : Kwargs) (s s' : State) (doc : Document) :
  forward self pages kwargs s = (s', inr doc) ->
  exists w lp crops lp' wp boxes tp,
    det_predictor self pages kwargs (world s) = (w, inr lp)
    /\ _prepare_crops pages lp (channels_last_of pages) (assume_straight_pages self)
       = inr (crops, lp')
    /\ reco_predictor self (flatten_crops crops) kwargs w = (world s', inr wp)
    /\ _process_predictions lp' wp
         (negb (export_as_straight_boxes (doc_builder self))) = inr (boxes, tp)
    /\ DocumentBuilder_call (doc_builder self) boxes tp
         (map (page_shape (channels_last_of pages)) pages) = inr doc.
Proof.
  intros Hrun. pose proof (forward_runs self pages kwargs s) as Hr.
  rewrite Hrun in Hr.
  inversion Hr as [| | | | |w lp crops lp' w' wp boxes tp r
    Hbad Hdet Hcrops Hreco Hproc Hbuild]; subst.
  by exists w, lp, crops, lp', wp, boxes, tp.
Qed.


End ForwardMore.

(** ** The further properties on the test doubles *)

Section MoreInstances.
Import Vocabs Doubles.
#[local] Existing Instance dom.
#[local] Existing Instance geom.
#[local] Existing Instance spec_helpers.

(** The German vocabulary. *)
Lemma vocabs_no_duplicates_witness :
  exists vocab, VOCABS_at "german" = Some vocab /\ NoDup vocab.
Proof.
  destruct (VOCABS_at "german") as [vocab|] eqn:Hk.
  - exists vocab. split; [reflexivity|].
    exact (vocabs_no_duplicates "german" vocab Hk).
  - vm_compute in Hk. discriminate Hk.
Defined.

(** The currency signs of the display. *)
Lemma vocabs_display_kept_witness :
  VOCABS_display !! "currency" = Some (lit "£€¥¢฿")
  /\ VOCABS_at "currency" = Some (lit "£€¥¢฿").
Proof.
  assert (Hk : VOCABS_display !! "currency" = Some (lit "£€¥¢฿")).
  { vm_compute. reflexivity. }
  split; [exact Hk|].
  exact (vocabs_display_kept "currency" _ Hk).
Defined.


(** A channel-first tensor behind a numpy page: its channel count is
    handed on as its height. *)
Lemma later_pages_follow_first_page_witness :
  [chw 3 32 64] !! 0 = Some (chw 3 32 64)
  /\ shape (chw 3 32 64) = [3; 32; 64]%N
  /\ exists shapes,
       snd (forward predictor [hwc 256 512 3; chw 3 32 64] tt s0)
       = DocumentBuilder_call (doc_builder predictor)
           [[full_box]; [full_box]] [[a_word]; [a_word]] shapes
       /\ shapes !! 1 = Some [3; 32]%N
       /\ exists doc,
            DocumentBuilder_call (doc_builder predictor)
              [[full_box]; [full_box]] [[a_word]; [a_word]] shapes = inr doc
            /\ map dimensions (doc_pages doc) !! 1 = Some [3; 32]%N.
Proof.
  split; [reflexivity|]. split; [reflexivity|].
  destruct (later_pages_follow_first_page predictor (hwc 256 512 3) [chw 3 32 64]
              tt s0 0 (chw 3 32 64) 3 32 64 eq_refl eq_refl) as [_ Happ].
  destruct (Happ 1 [[full_box]; [full_box]] [[hwc 256 512 3]; [chw 3 32 64]]
           [[full_box]; [full_box]] 2 [a_word; a_word]
           [[full_box]; [full_box]] [[a_word]; [a_word]]
           eq_refl eq_refl eq_refl eq_refl eq_refl) as (shapes & Hres & Hsh).
  exists shapes. split; [exact Hres|]. split; [exact Hsh|].
  destruct shapes as [|sh0 [|sh1 shapes]]; [discriminate Hsh ..|].
  injection Hsh as ->.
  eexists. split; [reflexivity | reflexivity].
Defined.

(** A detection predictor that raises: the run raises the same, in the
    state detection left, after that one call. *)
Lemma forward_passes_arguments_witness :
  bad_ndim [hwc 4 5 3] = false
  /\ det_predictor failing_predictor [hwc 4 5 3] tt (world s0)
     = (1, inl (Raised "RuntimeError" "detection failed"))
  /\ forward failing_predictor [hwc 4 5 3] tt s0
     = ({| world := 1; calls := [det_call [hwc 4 5 3] tt] |},
        inl (Raised "RuntimeError" "detection failed")).
Proof.
  split; [reflexivity|]. split; [reflexivity|].
  destruct (forward_passes_arguments failing_predictor [hwc 4 5 3] tt s0)
    as (_ & _ & Hdet & _).
  exact (Hdet 1 (Raised "RuntimeError" "detection failed") eq_refl eq_refl).
Defined.

(** A returning run on one page. *)
Lemma forward_data_flow_witness :
  exists s' doc w lp crops lp' wp boxes tp,
    forward predictor [hwc 4 5 3] tt s0 = (s', inr doc)
    /\ det_predictor predictor [hwc 4 5 3] tt (world s0) = (w, inr lp)
    /\ _prepare_crops [hwc 4 5 3] lp (channels_last_of [hwc 4 5 3])
         (assume_straight_pages predictor) = inr (crops, lp')
    /\ reco_predictor predictor (flatten_crops crops) tt w = (world s', inr wp)
    /\ _process_predictions lp' wp
         (negb (export_as_straight_boxes (doc_builder predictor))) = inr (boxes, tp)
    /\ DocumentBuilder_call (doc_builder predictor) boxes tp
         (map (page_shape (channels_last_of [hwc 4 5 3])) [hwc 4 5 3]) = inr doc.
Proof.
  destruct (forward predictor [hwc 4 5 3] tt s0) as [s' [e|doc]] eqn:Hrun.
  { vm_compute in Hrun. discriminate Hrun. }
  destruct (forward_data_flow predictor _ tt s0 s' doc Hrun)
    as (w & lp & crops & lp' & wp & boxes & tp & Hconcl).
  exists s', doc, w, lp, crops, lp', wp, boxes, tp. split; [reflexivity | exact Hconcl].
Defined.


End MoreInstances.
